(** * Backtesting script of solana-buyer: a model of [backtesting/main.py]

    The script opens the SQLite database of recorded pool liquidities,
    takes the first pool, prints it, and calls [get_pnl] on it; [get_pnl]
    reads the pool's liquidity rows ordered by timestamp and prints each
    timestamp.

    The model keeps the shape of the script: the two tables the header
    comment of the file documents, the statements sent through the session,
    a small state-and-exception monad for the Python effects (printing,
    querying, raising), and the two pieces of code, [get_pnl] and the
    module body [main]. *)

From Stdlib Require Import ZArith QArith List String Bool Lia.
From Stdlib Require Import Sorting.Sorted Sorting.Permutation.
Import ListNotations.
Local Open Scope Z_scope.

(** ** The two tables *)

(** Columns of table [pool], as listed at the top of the script.  Python
    integers are unbounded, hence [Z]. *)
Module Pool.
Record t : Type := mk
  { id : Z
  ; target_token_mint : string
  ; target_token_pool_vault : string
  ; sol_pool_vault : string
  ; rugged : bool
  ; started_indexing_at : Z
  ; done_indexing : bool }.
End Pool.

(** Columns of table [liquidity]. *)
Module Liquidity.
Record t : Type := mk
  { id : Z
  ; pool_id : Z
  ; ts : Z
  ; target_token_liquidity : Z
  ; sol_liquidity : Z }.
End Liquidity.

(** The database file: each table is the list of its rows in storage
    order. *)
Record Database : Type := mkDatabase
  { pool : list Pool.t
  ; liquidity : list Liquidity.t }.

(** ** Statements and their results *)

(** A result row of a [select] of one entity is a 1-tuple; the script
    reads it with [row[0]]. *)
Record Row (A : Type) : Type := mkRow { item0 : A }.
Arguments mkRow {A} _.
Arguments item0 {A} _.

(** What can be sent through [session.execute].  The script builds the
    first two; the others are the writes a session offers as well, present
    so that "the run does not write" is a statement about the script and
    not about the type of statements. *)
Inductive Statement : Type -> Type :=
| select_Pool : Statement Pool.t
| select_Liquidity_where_pool_id_order_by_ts_asc (pid : Z) : Statement Liquidity.t
| insert_Pool (p : Pool.t) : Statement Pool.t
| insert_Liquidity (l : Liquidity.t) : Statement Liquidity.t
| delete_Pool_where_id (pid : Z) : Statement Pool.t
| delete_Liquidity_where_pool_id (pid : Z) : Statement Liquidity.t
| update_Pool_set_rugged_where_id (pid : Z) (b : bool) : Statement Pool.t.

Definition is_select {A : Type} (s : Statement A) : bool :=
  match s with
  | select_Pool => true
  | select_Liquidity_where_pool_id_order_by_ts_asc _ => true
  | _ => false
  end.

(** [ORDER BY ts ASC]: insertion into an ascending list, before the first
    row whose [ts] is not smaller.  Rows with equal [ts] keep their storage
    order (SQLite leaves their order open; the model fixes this one). *)
Fixpoint insert_by_ts (l : Liquidity.t) (rows : list Liquidity.t)
  : list Liquidity.t :=
  match rows with
  | [] => [l]
  | r :: rows' =>
      if Liquidity.ts l <=? Liquidity.ts r
      then l :: r :: rows'
      else r :: insert_by_ts l rows'
  end.

Definition order_by_ts_asc (rows : list Liquidity.t) : list Liquidity.t :=
  fold_right insert_by_ts [] rows.

(** [WHERE liquidity.pool_id = pid]. *)
Definition where_pool_id (pid : Z) (rows : list Liquidity.t)
  : list Liquidity.t :=
  filter (fun l => Liquidity.pool_id l =? pid) rows.

Definition set_rugged (b : bool) (p : Pool.t) : Pool.t :=
  Pool.mk (Pool.id p) (Pool.target_token_mint p)
    (Pool.target_token_pool_vault p) (Pool.sol_pool_vault p)
    b (Pool.started_indexing_at p) (Pool.done_indexing p).

(** Rows returned by a statement and the database it leaves. *)
Definition run_statement {A : Type} (s : Statement A) (d : Database)
  : list (Row A) * Database :=
  match s in Statement T return list (Row T) * Database with
  | select_Pool => (map mkRow (pool d), d)
  | select_Liquidity_where_pool_id_order_by_ts_asc pid =>
      (map mkRow (order_by_ts_asc (where_pool_id pid (liquidity d))), d)
  | insert_Pool p => ([], mkDatabase (pool d ++ [p]) (liquidity d))
  | insert_Liquidity l => ([], mkDatabase (pool d) (liquidity d ++ [l]))
  | delete_Pool_where_id pid =>
      ([], mkDatabase (filter (fun p => negb (Pool.id p =? pid)) (pool d))
                      (liquidity d))
  | delete_Liquidity_where_pool_id pid =>
      ([], mkDatabase (pool d)
             (filter (fun l => negb (Liquidity.pool_id l =? pid))
                (liquidity d)))
  | update_Pool_set_rugged_where_id pid b =>
      ([], mkDatabase
             (map (fun p => if Pool.id p =? pid then set_rugged b p else p)
                (pool d))
             (liquidity d))
  end.

(** ** Effects of the script *)

(** What [print] writes: the script prints timestamps (integers) and one
    pool object. *)
Inductive Printed : Type :=
| printed_int (z : Z)
| printed_pool (p : Pool.t).

Inductive Sent : Type :=
| sent {A : Type} (s : Statement A).

Definition sent_is_select (x : Sent) : bool :=
  match x with sent s => is_select s end.

(** The world a run acts on: the database behind the engine, what was
    printed so far, and the statements sent so far (oldest first). *)
Record World : Type := mkWorld
  { database : Database
  ; stdout : list Printed
  ; statements : list Sent }.

Inductive Exception : Type :=
| TypeError.

(** The value of a call that falls off the end of its body. *)
Inductive NoneType : Type :=
| PyNone.

(** A Python computation: it ends with a value or an exception, and in
    both cases leaves a world. *)
Definition Py (A : Type) : Type := World -> (Exception + A) * World.

Definition ret {A : Type} (a : A) : Py A := fun w => (inr a, w).

Definition bind {A B : Type} (m : Py A) (k : A -> Py B) : Py B :=
  fun w =>
    match m w with
    | (inl e, w') => (inl e, w')
    | (inr a, w') => k a w'
    end.

Definition raise {A : Type} (e : Exception) : Py A := fun w => (inl e, w).

Declare Scope py_scope.
Delimit Scope py_scope with py.
Notation "x <- m ;; k" := (bind m (fun x => k))
  (at level 61, m at next level, right associativity) : py_scope.
Notation "m ;; k" := (bind m (fun _ => k))
  (at level 61, right associativity) : py_scope.
Local Open Scope py_scope.

Definition print (x : Printed) : Py unit :=
  fun w => (inr tt, mkWorld (database w) (stdout w ++ [x]) (statements w)).

(** [for x in xs: body]: the bodies run in order; an exception ends the
    loop. *)
Fixpoint for_each {A : Type} (xs : list A) (body : A -> Py unit) : Py unit :=
  match xs with
  | [] => ret tt
  | x :: xs' => body x ;; for_each xs' body
  end.

(** ** The session *)

Record Engine : Type := create_engine { url : string }.
Record Session : Type := mkSession { engine_of : Engine }.

(** The result of [session.execute]: the rows, read with [.all()] or
    [.first()]. *)
Definition Result (A : Type) : Type := list (Row A).

Definition execute {A : Type} (session : Session) (s : Statement A)
  : Py (Result A) :=
  fun w =>
    let (rows, d) := run_statement s (database w) in
    (inr rows, mkWorld d (stdout w) (statements w ++ [sent s])).

Definition all {A : Type} (r : Result A) : list (Row A) := r.

(** [.first()] is the first row, or [None] when there is no row. *)
Definition first {A : Type} (r : Result A) : option (Row A) := hd_error r.

(** [x[0]] where [x] came from [.first()]: subscripting [None] raises
    [TypeError]. *)
Definition subscript0 {A : Type} (x : option (Row A)) : Py A :=
  match x with
  | Some row => ret (item0 row)
  | None => raise TypeError
  end.

(** ** The script *)

Definition engine : Engine := create_engine "sqlite:///../liquidities.db".

(** [def get_pnl(session, pool, buy_time: int, sell_at_multiplier: int)] *)
Definition get_pnl (session : Session) (pool : Pool.t)
  (buy_time sell_at_multiplier : Z) : Py NoneType :=
  liquidities <- execute session
    (select_Liquidity_where_pool_id_order_by_ts_asc (Pool.id pool)) ;;
  let liquidities := all liquidities in
  for_each liquidities
    (fun row =>
       let liquidity := item0 row in
       print (printed_int (Liquidity.ts liquidity))) ;;
  ret PyNone.

(** The module body after the definitions: open a session, select the
    pools, take the first, print it, call [get_pnl] with the constants
    [1] and [2]. *)
Definition main : Py unit :=
  let session := mkSession engine in
  let stmt := select_Pool in
  pools <- execute session stmt ;;
  pool <- subscript0 (first pools) ;;
  print (printed_pool pool) ;;
  get_pnl session pool 1 2 ;;
  ret tt.

(** The rows [get_pnl] iterates over for a pool: the pool's rows of table
    [liquidity], ascending by [ts]. *)
Definition consumed (pool : Pool.t) (w : World) : list Liquidity.t :=
  order_by_ts_asc (where_pool_id (Pool.id pool) (liquidity (database w))).

(** What [get_pnl] prints for a row. *)
Definition print_ts (l : Liquidity.t) : Printed :=
  printed_int (Liquidity.ts l).

(** Rows in non-decreasing [ts] order. *)
Definition ascending (rows : list Liquidity.t) : Prop :=
  Sorted Z.le (map Liquidity.ts rows).

(** A fresh process: nothing printed, nothing sent yet. *)
Definition start (d : Database) : World := mkWorld d [] [].

(** ** The engine as the specification words it

    The definitions of this module follow the sentences of the
    specification (sections 3, 4.1 and 4.2), not the script; they are what
    the script is compared with. *)
Module Spec.

(** A price, or the mark of a liquidity collapse. *)
Inductive Price : Type :=
| collapsed
| quoted (q : Q).

Record PricePoint : Type := mkPoint { ts : Z; price : Price }.

Definition is_collapsed (p : PricePoint) : bool :=
  match price p with collapsed => true | quoted _ => false end.

(** [price = sol_liquidity / target_token_liquidity]; a snapshot with
    [target_token_liquidity <= 0] gives the collapsed mark. *)
Definition point_of (s : Liquidity.t) : PricePoint :=
  mkPoint (Liquidity.ts s)
    (if Liquidity.target_token_liquidity s <=? 0 then collapsed
     else quoted (Liquidity.sol_liquidity s
                  # Z.to_pos (Liquidity.target_token_liquidity s))).

(** One pass over the snapshots; of snapshots sharing a [ts] the later
    one wins. *)
Fixpoint build (snapshots : list Liquidity.t) : list PricePoint :=
  match snapshots with
  | [] => []
  | s :: rest =>
      match rest with
      | s' :: _ =>
          if Liquidity.ts s =? Liquidity.ts s' then build rest
          else point_of s :: build rest
      | [] => [point_of s]
      end
  end.

Inductive ExitReason : Type :=
| take_profit
| rug
| unresolved
| no_data.

Record TradeOutcome : Type := mkOutcome
  { entry : option PricePoint
  ; exit : option PricePoint
  ; reason : ExitReason
  ; realized_return : option Q }.

(** Entry selection: the first point with [ts >= t], and the points
    after it. *)
Fixpoint entry_scan (t : Z) (series : list PricePoint)
  : option (PricePoint * list PricePoint) :=
  match series with
  | [] => None
  | p :: rest => if t <=? ts p then Some (p, rest) else entry_scan t rest
  end.

Definition reaches (entry_price target_multiplier : Q) (p : PricePoint)
  : bool :=
  match price p with
  | collapsed => false
  | quoted q => Qle_bool (entry_price * target_multiplier) q
  end.

(** Exit scan: the first point after entry that is collapsed (reason
    [rug]) or reaches the target (reason [take_profit]). *)
Fixpoint exit_scan (entry_price target_multiplier : Q)
  (rest : list PricePoint) : option (PricePoint * ExitReason) :=
  match rest with
  | [] => None
  | p :: rest' =>
      if is_collapsed p then Some (p, rug)
      else if reaches entry_price target_multiplier p
           then Some (p, take_profit)
           else exit_scan entry_price target_multiplier rest'
  end.

Definition no_outcome_data : TradeOutcome :=
  mkOutcome None None no_data None.

Definition simulate (pool : Pool.t) (series : list PricePoint)
  (buy_delay : Z) (target_multiplier : Q) : TradeOutcome :=
  match entry_scan (Pool.started_indexing_at pool + buy_delay) series with
  | None => no_outcome_data
  | Some (e, rest) =>
      match price e with
      | collapsed => no_outcome_data
      | quoted pe =>
          match exit_scan pe target_multiplier rest with
          | Some (p, rug) =>
              mkOutcome (Some e) (Some p) rug (Some (- (1))%Q)
          | Some (p, _) =>
              mkOutcome (Some e) (Some p) take_profit
                (Some (target_multiplier - 1)%Q)
          | None =>
              let l := last rest e in
              match price l, Pool.done_indexing pool with
              | quoted pl, true =>
                  mkOutcome (Some e) (Some l) unresolved
                    (Some (pl / pe - 1)%Q)
              | _, _ => no_outcome_data
              end
          end
      end
  end.

End Spec.

(** ** Reading the script's result in the specification's terms *)

(** The trade outcome a result of [get_pnl] carries.  The function has no
    [return] statement: its value is [None], which carries none; neither
    does an exception. *)
Definition outcome_of (r : Exception + NoneType) : option Spec.TradeOutcome :=
  match r with
  | inr PyNone => None
  | inl _ => None
  end.

Definition entry_of (r : Exception + NoneType) : option Spec.PricePoint :=
  match outcome_of r with Some o => Spec.entry o | None => None end.

Definition exit_of (r : Exception + NoneType) : option Spec.PricePoint :=
  match outcome_of r with Some o => Spec.exit o | None => None end.

Definition return_of (r : Exception + NoneType) : option Q :=
  match outcome_of r with Some o => Spec.realized_return o | None => None end.

(** In the four-way classification of the specification, a result without
    an outcome gives no data about the pool. *)
Definition reason_of (r : Exception + NoneType) : Spec.ExitReason :=
  match outcome_of r with Some o => Spec.reason o | None => Spec.no_data end.


(** The price series of a pool: built from the rows [get_pnl] reads. *)
Definition series_of (pool : Pool.t) (w : World) : list Spec.PricePoint :=
  Spec.build (consumed pool w).

Definition entry_time (pool : Pool.t) (buy_time : Z) : Z :=
  Pool.started_indexing_at pool + buy_time.

Definition set_done_indexing (b : bool) (p : Pool.t) : Pool.t :=
  Pool.mk (Pool.id p) (Pool.target_token_mint p)
    (Pool.target_token_pool_vault p) (Pool.sol_pool_vault p)
    (Pool.rugged p) (Pool.started_indexing_at p) b.

(** The realized return a result reports is [q]. *)
Definition returns (r : Exception + NoneType) (q : Q) : Prop :=
  match return_of r with
  | Some x => (x == q)%Q
  | None => False
  end.

(** The entry point of a series at a time, with its price, when that point
    is quoted, and the points after it. *)
Definition quoted_entry (t : Z) (series : list Spec.PricePoint)
  : option (Spec.PricePoint * Q * list Spec.PricePoint) :=
  match Spec.entry_scan t series with
  | Some (e, rest) =>
      match Spec.price e with
      | Spec.quoted pe => Some (e, pe, rest)
      | Spec.collapsed => None
      end
  | None => None
  end.

(** The pools [main] handed to [get_pnl] in a run: it prints each pool
    right before the call, and prints pools nowhere else. *)
Fixpoint pools_printed (out : list Printed) : list Pool.t :=
  match out with
  | [] => []
  | printed_pool p :: out' => p :: pools_printed out'
  | printed_int _ :: out' => pools_printed out'
  end.

Definition processed (d : Database) : list Pool.t :=
  pools_printed (stdout (snd (main (start d)))).

(** ** The described behaviour, stated on the script

    Each definition states one behaviour of the specification about
    [get_pnl] or [main], at one input. *)

(** Entry is the first point at or after the entry time; without such a
    point the outcome is [no_data]. *)
Definition entry_selected_as_described (session : Session) (pool : Pool.t)
  (buy_time sell_at_multiplier : Z) (w : World) : Prop :=
  let r := fst (get_pnl session pool buy_time sell_at_multiplier w) in
  match Spec.entry_scan (entry_time pool buy_time) (series_of pool w) with
  | Some (e, _) => entry_of r = Some e
  | None => reason_of r = Spec.no_data
  end.

(** A collapsed point after entry: exit there, reason [rug], return [-1],
    whatever [pool.rugged]. *)
Definition rug_exit_as_described (session : Session) (pool : Pool.t)
  (buy_time sell_at_multiplier : Z) (w : World) : Prop :=
  forall e pe rest c,
    quoted_entry (entry_time pool buy_time) (series_of pool w)
      = Some (e, pe, rest) ->
    find Spec.is_collapsed rest = Some c ->
    forall flag,
      let r := fst (get_pnl session (set_rugged flag pool) buy_time
                      sell_at_multiplier w) in
      reason_of r = Spec.rug /\ exit_of r = Some c /\ returns r (- (1))%Q.

(** A point reaching the target before any collapse: reason
    [take_profit], return [target_multiplier - 1]. *)
Definition take_profit_exit_as_described (session : Session) (pool : Pool.t)
  (buy_time sell_at_multiplier : Z) (w : World) : Prop :=
  forall e pe rest p,
    quoted_entry (entry_time pool buy_time) (series_of pool w)
      = Some (e, pe, rest) ->
    Spec.exit_scan pe (inject_Z sell_at_multiplier) rest
      = Some (p, Spec.take_profit) ->
    let r := fst (get_pnl session pool buy_time sell_at_multiplier w) in
    reason_of r = Spec.take_profit
    /\ returns r (inject_Z sell_at_multiplier - 1)%Q.

(** The series ends without collapse or target: with [done_indexing] the
    reason is [unresolved] and the return is marked to the last price;
    without it the outcome is [no_data]. *)
Definition exhausted_series_as_described (session : Session) (pool : Pool.t)
  (buy_time sell_at_multiplier : Z) (w : World) : Prop :=
  forall e pe rest pl,
    quoted_entry (entry_time pool buy_time) (series_of pool w)
      = Some (e, pe, rest) ->
    Spec.exit_scan pe (inject_Z sell_at_multiplier) rest = None ->
    Spec.price (last rest e) = Spec.quoted pl ->
    (let r := fst (get_pnl session (set_done_indexing true pool) buy_time
                     sell_at_multiplier w) in
     reason_of r = Spec.unresolved /\ returns r (pl / pe - 1)%Q)
    /\
    (let r := fst (get_pnl session (set_done_indexing false pool) buy_time
                     sell_at_multiplier w) in
     reason_of r = Spec.no_data).

(** Only pools with [done_indexing = true] are processed. *)
Definition only_done_pools_processed (d : Database) : Prop :=
  forall p, In p (processed d) -> Pool.done_indexing p = true.

(** A non-positive multiplier is rejected before anything happens; a
    positive one never ends in an exception. *)
Definition multiplier_validated (session : Session) (pool : Pool.t)
  (buy_time sell_at_multiplier : Z) (w : World) : Prop :=
  (sell_at_multiplier <= 0 ->
   exists e, get_pnl session pool buy_time sell_at_multiplier w = (inl e, w))
  /\
  (0 < sell_at_multiplier ->
   forall e, fst (get_pnl session pool buy_time sell_at_multiplier w)
             <> inl e).

(** ** Inputs of the scenarios of the specification *)

Definition scenario_pool : Pool.t :=
  Pool.mk 1 "mint" "token_vault" "sol_vault" false 0 true.

Definition snapshot (i t tok sol : Z) : Liquidity.t :=
  Liquidity.mk i 1 t tok sol.

Definition scenario_session : Session := mkSession engine.

(** Snapshots [(t=0, tok=100, sol=10)] and [(t=10, tok=100, sol=25)],
    stored latest first. *)
Definition take_profit_world : World :=
  start (mkDatabase [scenario_pool]
           [snapshot 2 10 100 25; snapshot 1 0 100 10]).

(** Snapshots [(t=0, tok=100, sol=10)] and [(t=10, tok=0, sol=0)]. *)
Definition rug_world : World :=
  start (mkDatabase [scenario_pool]
           [snapshot 1 0 100 10; snapshot 2 10 0 0]).

(** Snapshots [(t=0, tok=100, sol=10)] and [(t=10, tok=100, sol=13)]: the
    series ends at 1.3 times the entry price. *)
Definition unresolved_world : World :=
  start (mkDatabase [scenario_pool]
           [snapshot 1 0 100 10; snapshot 2 10 100 13]).

(** A database whose first pool is not done indexing. *)
Definition undone_database : Database :=
  mkDatabase [set_done_indexing false scenario_pool; scenario_pool]
    [snapshot 1 5 100 10].

(** * Properties *)

(** ** ORDER BY: the rows come out ascending, and none is lost *)

Lemma insert_by_ts_permutation (l : Liquidity.t) (rows : list Liquidity.t) :
  Permutation (insert_by_ts l rows) (l :: rows).
Proof.
  induction rows as [| r rows IH]; simpl.
  - apply Permutation_refl.
  - destruct (Liquidity.ts l <=? Liquidity.ts r).
    + apply Permutation_refl.
    + eapply perm_trans.
      * apply perm_skip, IH.
      * apply perm_swap.
Qed.

Lemma order_by_ts_asc_permutation (rows : list Liquidity.t) :
  Permutation (order_by_ts_asc rows) rows.
Proof.
  induction rows as [| r rows IH]; simpl.
  - apply perm_nil.
  - eapply perm_trans.
    + apply insert_by_ts_permutation.
    + apply perm_skip, IH.
Qed.

Lemma insert_by_ts_head (t : Z) (l : Liquidity.t) (rows : list Liquidity.t) :
  t <= Liquidity.ts l ->
  HdRel Z.le t (map Liquidity.ts rows) ->
  HdRel Z.le t (map Liquidity.ts (insert_by_ts l rows)).
Proof.
  intros Hl Hrows. destruct rows as [| r rows]; simpl.
  - constructor. exact Hl.
  - destruct (Liquidity.ts l <=? Liquidity.ts r); simpl.
    + constructor. exact Hl.
    + inversion Hrows; subst. constructor. assumption.
Qed.

Lemma insert_by_ts_ascending (l : Liquidity.t) (rows : list Liquidity.t) :
  ascending rows -> ascending (insert_by_ts l rows).
Proof.
  unfold ascending. induction rows as [| r rows IH]; simpl; intros Hs.
  - repeat constructor.
  - destruct (Z.leb_spec (Liquidity.ts l) (Liquidity.ts r)) as [Hle | Hgt];
      simpl.
    + constructor; [exact Hs | constructor; exact Hle].
    + inversion Hs as [| ? ? Hrows Hhd]; subst.
      constructor.
      * apply IH, Hrows.
      * apply insert_by_ts_head; [lia | exact Hhd].
Qed.

Lemma order_by_ts_asc_ascending (rows : list Liquidity.t) :
  ascending (order_by_ts_asc rows).
Proof.
  induction rows as [| r rows IH]; simpl.
  - constructor.
  - apply insert_by_ts_ascending, IH.
Qed.

Lemma where_pool_id_permutation (pid : Z) (rows1 rows2 : list Liquidity.t) :
  Permutation rows1 rows2 ->
  Permutation (where_pool_id pid rows1) (where_pool_id pid rows2).
Proof.
  unfold where_pool_id. intros Hperm.
  induction Hperm as [| x l l' _ IH | x y l | l l' l'' _ IH1 _ IH2]; simpl.
  - apply perm_nil.
  - destruct (Liquidity.pool_id x =? pid).
    + apply perm_skip, IH.
    + exact IH.
  - destruct (Liquidity.pool_id y =? pid), (Liquidity.pool_id x =? pid);
      try apply Permutation_refl.
    apply perm_swap.
  - eapply perm_trans; eassumption.
Qed.

(** An ascending list is determined by its elements. *)
Lemma ascending_permutation_unique (l1 l2 : list Z) :
  StronglySorted Z.le l1 -> StronglySorted Z.le l2 ->
  Permutation l1 l2 -> l1 = l2.
Proof.
  revert l2. induction l1 as [| a l1 IH]; intros l2 Hs1 Hs2 Hperm.
  - apply Permutation_nil in Hperm. symmetry. exact Hperm.
  - destruct l2 as [| b l2].
    + apply Permutation_sym, Permutation_nil in Hperm. discriminate Hperm.
    + inversion Hs1 as [| ? ? Hs1' Hall1]; subst.
      inversion Hs2 as [| ? ? Hs2' Hall2]; subst.
      assert (Hba : b <= a).
      { assert (Hin : In a (b :: l2))
          by (eapply Permutation_in; [exact Hperm | left; reflexivity]).
        destruct Hin as [-> | Hin]; [lia |].
        rewrite Forall_forall in Hall2. apply Hall2, Hin. }
      assert (Hab : a <= b).
      { assert (Hin : In b (a :: l1))
          by (eapply Permutation_in;
              [apply Permutation_sym; exact Hperm | left; reflexivity]).
        destruct Hin as [-> | Hin]; [lia |].
        rewrite Forall_forall in Hall1. apply Hall1, Hin. }
      assert (a = b) by lia. subst b.
      f_equal. apply IH; try assumption.
      eapply Permutation_cons_inv. exact Hperm.
Qed.

(** The timestamps [get_pnl] reads do not depend on the order in which the
    rows are stored. *)
Lemma storage_order_irrelevant (pool : Pool.t) (w1 w2 : World) :
  Permutation (liquidity (database w1)) (liquidity (database w2)) ->
  map Liquidity.ts (consumed pool w1) = map Liquidity.ts (consumed pool w2).
Proof.
  intros Hperm. unfold consumed.
  apply ascending_permutation_unique.
  - apply Sorted_StronglySorted; [exact Z.le_trans |].
    apply order_by_ts_asc_ascending.
  - apply Sorted_StronglySorted; [exact Z.le_trans |].
    apply order_by_ts_asc_ascending.
  - apply Permutation_map.
    eapply perm_trans; [apply order_by_ts_asc_permutation |].
    eapply perm_trans;
      [| apply Permutation_sym, order_by_ts_asc_permutation].
    apply where_pool_id_permutation, Hperm.
Qed.

(** ** What a call of [get_pnl] and a run of [main] do *)

Lemma for_each_print_ts (rows : list Liquidity.t) (w : World) :
  for_each (map mkRow rows)
    (fun row => print (printed_int (Liquidity.ts (item0 row)))) w
  = (inr tt,
     mkWorld (database w) (stdout w ++ map print_ts rows) (statements w)).
Proof.
  revert w. induction rows as [| r rows IH]; intros w; simpl.
  - unfold ret. rewrite app_nil_r. destruct w; reflexivity.
  - unfold bind at 1. unfold print at 1. rewrite IH. simpl.
    rewrite <- app_assoc. reflexivity.
Qed.

(** A call of [get_pnl] sends one select, prints the timestamps of the
    rows it returns, returns [None], and leaves the database as it was. *)
Lemma get_pnl_run (session : Session) (pool : Pool.t)
  (buy_time sell_at_multiplier : Z) (w : World) :
  get_pnl session pool buy_time sell_at_multiplier w
  = (inr PyNone,
     mkWorld (database w)
       (stdout w ++ map print_ts (consumed pool w))
       (statements w
          ++ [sent (select_Liquidity_where_pool_id_order_by_ts_asc
                      (Pool.id pool))])).
Proof.
  unfold get_pnl, all, consumed.
  unfold bind at 1. unfold execute at 1. simpl.
  unfold bind at 1. rewrite for_each_print_ts. reflexivity.
Qed.

(** A run of [main] on a database without pools ends in [TypeError],
    after the select of the pools. *)
Lemma main_run_no_pool (w : World) :
  pool (database w) = [] ->
  main w = (inl TypeError,
            mkWorld (database w) (stdout w)
              (statements w ++ [sent select_Pool])).
Proof.
  intros Hnil. unfold main.
  unfold bind at 1. unfold execute at 1. simpl. rewrite Hnil. reflexivity.
Qed.

(** A run of [main] on a database with pools prints the first pool and
    calls [get_pnl] on it. *)
Lemma main_run_first_pool (w : World) (p : Pool.t) (others : list Pool.t) :
  pool (database w) = p :: others ->
  main w = (inr tt,
            mkWorld (database w)
              (stdout w ++ printed_pool p :: map print_ts (consumed p w))
              (statements w
                 ++ [sent select_Pool;
                     sent (select_Liquidity_where_pool_id_order_by_ts_asc
                             (Pool.id p))])).
Proof.
  intros Hpools. unfold main.
  unfold bind at 1. unfold execute at 1. simpl. rewrite Hpools. simpl.
  unfold bind at 1. unfold ret at 1.
  unfold bind at 1. unfold print at 1.
  unfold bind at 1. rewrite get_pnl_run. simpl.
  unfold ret, consumed. simpl.
  rewrite <- !app_assoc. reflexivity.
Qed.

Lemma get_pnl_reads_id_only (session : Session) (p q : Pool.t)
  (buy_time sell_at_multiplier : Z) (w : World) :
  Pool.id p = Pool.id q ->
  get_pnl session p buy_time sell_at_multiplier w
  = get_pnl session q buy_time sell_at_multiplier w.
Proof.
  intros Hid. rewrite !get_pnl_run. unfold consumed. rewrite Hid.
  reflexivity.
Qed.

Lemma pools_printed_ts (rows : list Liquidity.t) :
  pools_printed (map print_ts rows) = [].
Proof.
  induction rows as [| r rows IH]; simpl; [reflexivity | exact IH].
Qed.

(** The writes a session offers do change the database: that a run leaves
    it unchanged is a property of the statements the script sends. *)
Example insert_changes_database :
  database (snd (execute scenario_session
                   (insert_Liquidity (snapshot 3 20 100 30))
                   take_profit_world))
  <> database take_profit_world.
Proof. vm_compute. discriminate. Qed.

(** The specification's scenarios, on the engine as it words it. *)
Example spec_scenario_take_profit :
  Spec.simulate scenario_pool (series_of scenario_pool take_profit_world) 0 2
  = Spec.mkOutcome (Some (Spec.mkPoint 0 (Spec.quoted (10 # 100))))
      (Some (Spec.mkPoint 10 (Spec.quoted (25 # 100))))
      Spec.take_profit (Some (2 - 1)%Q).
Proof. reflexivity. Qed.

Example spec_scenario_rug :
  Spec.reason
    (Spec.simulate scenario_pool (series_of scenario_pool rug_world) 0 2)
  = Spec.rug.
Proof. reflexivity. Qed.

Example spec_scenario_unresolved :
  Spec.reason
    (Spec.simulate scenario_pool (series_of scenario_pool unresolved_world)
       0 2)
  = Spec.unresolved.
Proof. reflexivity. Qed.

(** ** Entry selection *)

(** C1, as described, fails: in the take-profit scenario a snapshot at the
    entry time exists, and the result of [get_pnl] carries no entry. *)
Lemma entry_not_selected_in_take_profit_scenario :
  ~ entry_selected_as_described scenario_session scenario_pool 0 2
      take_profit_world.
Proof.
  unfold entry_selected_as_described. vm_compute. intros H. discriminate H.
Qed.

(** C1, amended: for every pool and every series, [get_pnl] selects no
    entry, also when a point at or after
    [started_indexing_at + buy_time] exists.  Its value is [None], which
    carries no outcome and so gives no data about the pool; this holds in
    particular when no such point exists and when the series is empty.
    What the call does is print the timestamp of every row of the pool, in
    ascending order. *)
Theorem get_pnl_selects_no_entry :
  forall (session : Session) (pool : Pool.t)
         (buy_time sell_at_multiplier : Z) (w : World),
    fst (get_pnl session pool buy_time sell_at_multiplier w) = inr PyNone
    /\ entry_of (fst (get_pnl session pool buy_time sell_at_multiplier w))
       = None
    /\ reason_of (fst (get_pnl session pool buy_time sell_at_multiplier w))
       = Spec.no_data
    /\ stdout (snd (get_pnl session pool buy_time sell_at_multiplier w))
       = stdout w ++ map print_ts (consumed pool w).
Proof.
  intros. rewrite get_pnl_run. simpl. repeat split; reflexivity.
Qed.

(** ** Exit on a collapsed point *)

(** C2, as described, fails: in the rug scenario the point after entry is
    collapsed, and [get_pnl] reports neither reason [rug] nor a return. *)
Lemma no_rug_exit_in_collapse_scenario :
  ~ rug_exit_as_described scenario_session scenario_pool 0 2 rug_world.
Proof.
  unfold rug_exit_as_described. intros H.
  specialize (H (Spec.mkPoint 0 (Spec.quoted (10 # 100))) (10 # 100)%Q
                [Spec.mkPoint 10 Spec.collapsed]
                (Spec.mkPoint 10 Spec.collapsed)
                eq_refl eq_refl false).
  destruct H as [Hreason _]. vm_compute in Hreason. discriminate Hreason.
Qed.

(** C2, amended: for every pool and every series with a collapsed point
    after a quoted entry, [get_pnl] returns [None]: it reports no exit, no
    reason [rug] and no realized return.  The whole call, value and
    printed timestamps, does not depend on [pool.rugged]. *)
Theorem get_pnl_reports_no_rug :
  forall (session : Session) (pool : Pool.t)
         (buy_time sell_at_multiplier : Z) (w : World)
         (e : Spec.PricePoint) (pe : Q) (rest : list Spec.PricePoint)
         (c : Spec.PricePoint),
    quoted_entry (entry_time pool buy_time) (series_of pool w)
      = Some (e, pe, rest) ->
    find Spec.is_collapsed rest = Some c ->
    forall flag : bool,
      fst (get_pnl session (set_rugged flag pool) buy_time
             sell_at_multiplier w) = inr PyNone
      /\ reason_of (fst (get_pnl session (set_rugged flag pool) buy_time
                           sell_at_multiplier w)) <> Spec.rug
      /\ exit_of (fst (get_pnl session (set_rugged flag pool) buy_time
                         sell_at_multiplier w)) = None
      /\ return_of (fst (get_pnl session (set_rugged flag pool) buy_time
                           sell_at_multiplier w)) = None
      /\ get_pnl session (set_rugged flag pool) buy_time sell_at_multiplier w
         = get_pnl session pool buy_time sell_at_multiplier w.
Proof.
  intros session pool buy_time sell_at_multiplier w e pe rest c _ _ flag.
  assert (Hsame : get_pnl session (set_rugged flag pool) buy_time
                    sell_at_multiplier w
                  = get_pnl session pool buy_time sell_at_multiplier w)
    by (apply get_pnl_reads_id_only; reflexivity).
  rewrite Hsame, get_pnl_run. simpl.
  repeat split; try reflexivity. discriminate.
Qed.

Lemma get_pnl_reports_no_rug_witness :
  quoted_entry (entry_time scenario_pool 0)
    (series_of scenario_pool rug_world)
  = Some (Spec.mkPoint 0 (Spec.quoted (10 # 100)), (10 # 100)%Q,
          [Spec.mkPoint 10 Spec.collapsed])
  /\ find Spec.is_collapsed [Spec.mkPoint 10 Spec.collapsed]
     = Some (Spec.mkPoint 10 Spec.collapsed)
  /\ reason_of (fst (get_pnl scenario_session
                       (set_rugged true scenario_pool) 0 2 rug_world))
     <> Spec.rug.
Proof.
  split; [reflexivity | split; [reflexivity |]].
  apply (get_pnl_reports_no_rug scenario_session scenario_pool 0 2 rug_world
           (Spec.mkPoint 0 (Spec.quoted (10 # 100))) (10 # 100)%Q
           [Spec.mkPoint 10 Spec.collapsed]
           (Spec.mkPoint 10 Spec.collapsed));
    reflexivity.
Defined.

(** ** Exit on the target price *)

(** C3, as described, fails: in the take-profit scenario the price 0.25
    reaches twice the entry price 0.1, and [get_pnl] reports neither reason
    [take_profit] nor a return. *)
Lemma no_take_profit_exit_in_scenario :
  ~ take_profit_exit_as_described scenario_session scenario_pool 0 2
      take_profit_world.
Proof.
  unfold take_profit_exit_as_described. intros H.
  specialize (H (Spec.mkPoint 0 (Spec.quoted (10 # 100))) (10 # 100)%Q
                [Spec.mkPoint 10 (Spec.quoted (25 # 100))]
                (Spec.mkPoint 10 (Spec.quoted (25 # 100)))
                eq_refl eq_refl).
  destruct H as [Hreason _]. vm_compute in Hreason. discriminate Hreason.
Qed.

(** C3, amended: for every pool and every series in which a point after a
    quoted entry reaches [entry.price * sell_at_multiplier] before any
    collapsed point, [get_pnl] returns [None]: it reports no reason
    [take_profit] and no realized return. *)
Theorem get_pnl_reports_no_take_profit :
  forall (session : Session) (pool : Pool.t)
         (buy_time sell_at_multiplier : Z) (w : World)
         (e : Spec.PricePoint) (pe : Q) (rest : list Spec.PricePoint)
         (p : Spec.PricePoint),
    quoted_entry (entry_time pool buy_time) (series_of pool w)
      = Some (e, pe, rest) ->
    Spec.exit_scan pe (inject_Z sell_at_multiplier) rest
      = Some (p, Spec.take_profit) ->
    fst (get_pnl session pool buy_time sell_at_multiplier w) = inr PyNone
    /\ reason_of (fst (get_pnl session pool buy_time sell_at_multiplier w))
       <> Spec.take_profit
    /\ exit_of (fst (get_pnl session pool buy_time sell_at_multiplier w))
       = None
    /\ return_of (fst (get_pnl session pool buy_time sell_at_multiplier w))
       = None.
Proof.
  intros session pool buy_time sell_at_multiplier w e pe rest p _ _.
  rewrite get_pnl_run. simpl.
  repeat split; try reflexivity. discriminate.
Qed.

Lemma get_pnl_reports_no_take_profit_witness :
  quoted_entry (entry_time scenario_pool 0)
    (series_of scenario_pool take_profit_world)
  = Some (Spec.mkPoint 0 (Spec.quoted (10 # 100)), (10 # 100)%Q,
          [Spec.mkPoint 10 (Spec.quoted (25 # 100))])
  /\ Spec.exit_scan (10 # 100) (inject_Z 2)
       [Spec.mkPoint 10 (Spec.quoted (25 # 100))]
     = Some (Spec.mkPoint 10 (Spec.quoted (25 # 100)), Spec.take_profit)
  /\ reason_of (fst (get_pnl scenario_session scenario_pool 0 2
                       take_profit_world))
     <> Spec.take_profit.
Proof.
  split; [reflexivity | split; [reflexivity |]].
  apply (get_pnl_reports_no_take_profit scenario_session scenario_pool 0 2
           take_profit_world
           (Spec.mkPoint 0 (Spec.quoted (10 # 100))) (10 # 100)%Q
           [Spec.mkPoint 10 (Spec.quoted (25 # 100))]
           (Spec.mkPoint 10 (Spec.quoted (25 # 100))));
    reflexivity.
Defined.

(** ** End of the series *)

(** C4, as described, fails: in the third scenario the series ends at 1.3
    times the entry price with [done_indexing = true], and [get_pnl]
    reports neither reason [unresolved] nor the return 0.3. *)
Lemma no_unresolved_exit_in_scenario :
  ~ exhausted_series_as_described scenario_session scenario_pool 0 2
      unresolved_world.
Proof.
  unfold exhausted_series_as_described. intros H.
  specialize (H (Spec.mkPoint 0 (Spec.quoted (10 # 100))) (10 # 100)%Q
                [Spec.mkPoint 10 (Spec.quoted (13 # 100))] (13 # 100)%Q
                eq_refl eq_refl eq_refl).
  destruct H as [[Hreason _] _]. vm_compute in Hreason.
  discriminate Hreason.
Qed.

(** C4, amended: for every pool whose series ends after a quoted entry
    without a collapsed point and without reaching the target, [get_pnl]
    returns [None] both with [done_indexing = true] and with
    [done_indexing = false]: no reason [unresolved] and no mark-to-last
    return is reported, the result gives no data in both cases, and the
    whole call does not depend on [done_indexing]. *)
Theorem get_pnl_reports_no_mark_to_last :
  forall (session : Session) (pool : Pool.t)
         (buy_time sell_at_multiplier : Z) (w : World)
         (e : Spec.PricePoint) (pe : Q) (rest : list Spec.PricePoint),
    quoted_entry (entry_time pool buy_time) (series_of pool w)
      = Some (e, pe, rest) ->
    Spec.exit_scan pe (inject_Z sell_at_multiplier) rest = None ->
    forall flag : bool,
      fst (get_pnl session (set_done_indexing flag pool) buy_time
             sell_at_multiplier w) = inr PyNone
      /\ reason_of (fst (get_pnl session (set_done_indexing flag pool)
                           buy_time sell_at_multiplier w)) = Spec.no_data
      /\ return_of (fst (get_pnl session (set_done_indexing flag pool)
                           buy_time sell_at_multiplier w)) = None
      /\ get_pnl session (set_done_indexing flag pool) buy_time
           sell_at_multiplier w
         = get_pnl session pool buy_time sell_at_multiplier w.
Proof.
  intros session pool buy_time sell_at_multiplier w e pe rest _ _ flag.
  assert (Hsame : get_pnl session (set_done_indexing flag pool) buy_time
                    sell_at_multiplier w
                  = get_pnl session pool buy_time sell_at_multiplier w)
    by (apply get_pnl_reads_id_only; reflexivity).
  rewrite Hsame, get_pnl_run. simpl.
  repeat split; reflexivity.
Qed.

Lemma get_pnl_reports_no_mark_to_last_witness :
  quoted_entry (entry_time scenario_pool 0)
    (series_of scenario_pool unresolved_world)
  = Some (Spec.mkPoint 0 (Spec.quoted (10 # 100)), (10 # 100)%Q,
          [Spec.mkPoint 10 (Spec.quoted (13 # 100))])
  /\ Spec.exit_scan (10 # 100) (inject_Z 2)
       [Spec.mkPoint 10 (Spec.quoted (13 # 100))] = None
  /\ reason_of (fst (get_pnl scenario_session
                       (set_done_indexing true scenario_pool) 0 2
                       unresolved_world))
     = Spec.no_data.
Proof.
  split; [reflexivity | split; [reflexivity |]].
  apply (get_pnl_reports_no_mark_to_last scenario_session scenario_pool 0 2
           unresolved_world
           (Spec.mkPoint 0 (Spec.quoted (10 # 100))) (10 # 100)%Q
           [Spec.mkPoint 10 (Spec.quoted (13 # 100))]);
    reflexivity.
Defined.

(** ** Which pools a run processes *)

(** C5, as described, fails: when the first pool of the table has
    [done_indexing = false], [main] prints it and calls [get_pnl] on it. *)
Lemma main_processes_pool_not_done_indexing :
  ~ only_done_pools_processed undone_database.
Proof.
  unfold only_done_pools_processed. intros H.
  specialize (H (set_done_indexing false scenario_pool)).
  assert (Hin : In (set_done_indexing false scenario_pool)
                  (processed undone_database))
    by (vm_compute; left; reflexivity).
  specialize (H Hin). vm_compute in H. discriminate H.
Qed.

(** C5, amended: [main] applies no [done_indexing] filter.  On a database
    with at least one pool it processes exactly the first pool of the
    unfiltered pool table, whatever its [done_indexing] flag: it prints the
    pool and then the ascending timestamps of its liquidity rows, sending
    the two selects.  No other pool is processed and no aggregate is
    computed. *)
Theorem main_takes_first_pool_unfiltered :
  forall (p : Pool.t) (others : list Pool.t) (rows : list Liquidity.t),
    main (start (mkDatabase (p :: others) rows))
    = (inr tt,
       mkWorld (mkDatabase (p :: others) rows)
         (printed_pool p
          :: map print_ts (order_by_ts_asc (where_pool_id (Pool.id p) rows)))
         [sent select_Pool;
          sent (select_Liquidity_where_pool_id_order_by_ts_asc (Pool.id p))])
    /\ processed (mkDatabase (p :: others) rows) = [p].
Proof.
  intros p others rows.
  assert (Hrun := main_run_first_pool
                    (start (mkDatabase (p :: others) rows)) p others eq_refl).
  split.
  - exact Hrun.
  - unfold processed. rewrite Hrun. simpl. f_equal. apply pools_printed_ts.
Qed.

(** ** The multiplier *)



(** C7, as described, fails: [get_pnl] called with multiplier [0] is not
    rejected; it completes and returns [None]. *)
Lemma non_positive_multiplier_accepted :
  ~ multiplier_validated scenario_session scenario_pool 1 0
      take_profit_world.
Proof.
  unfold multiplier_validated. intros [Hreject _].
  destruct Hreject as [e He]; [lia |].
  rewrite get_pnl_run in He. discriminate He.
Qed.

(** C7, amended: [get_pnl] does not validate [sell_at_multiplier].  For
    every multiplier, non-positive or positive, the call raises no
    exception: it completes with value [None], and it is never a
    rejection that leaves the world untouched. *)
Theorem get_pnl_accepts_any_multiplier :
  forall (session : Session) (pool : Pool.t)
         (buy_time sell_at_multiplier : Z) (w : World),
    fst (get_pnl session pool buy_time sell_at_multiplier w) = inr PyNone
    /\ (forall e : Exception,
          get_pnl session pool buy_time sell_at_multiplier w <> (inl e, w)).
Proof.
  intros. rewrite get_pnl_run. split.
  - reflexivity.
  - intros e He. discriminate He.
Qed.

(** ** Order of the consumed snapshots *)

(** C8: for every pool and every database, whatever the storage order of
    table [liquidity], the rows [get_pnl] consumes (those whose timestamps
    it prints, in that order) are in non-decreasing [ts] order, and they
    are exactly the stored rows of the pool, rearranged: the order comes
    from the [ORDER BY] of the query the function itself builds. *)
Theorem get_pnl_consumes_ascending_ts :
  forall (session : Session) (pool : Pool.t)
         (buy_time sell_at_multiplier : Z) (w : World),
    stdout (snd (get_pnl session pool buy_time sell_at_multiplier w))
    = stdout w ++ map print_ts (consumed pool w)
    /\ Sorted Z.le (map Liquidity.ts (consumed pool w))
    /\ Permutation (consumed pool w)
         (where_pool_id (Pool.id pool) (liquidity (database w))).
Proof.
  intros. rewrite get_pnl_run. simpl. split; [reflexivity | split].
  - apply order_by_ts_asc_ascending.
  - apply order_by_ts_asc_permutation.
Qed.

(** ** The run does not write *)

(** C9: a call of [get_pnl] and a run of [main] leave the database, that
    is the stored pools and liquidity rows, unchanged, and every statement
    they send through the session is a select. *)
Theorem run_only_reads :
  forall w : World,
    (forall (session : Session) (pool : Pool.t)
            (buy_time sell_at_multiplier : Z),
        database (snd (get_pnl session pool buy_time sell_at_multiplier w))
        = database w
        /\ exists new : list Sent,
             statements
               (snd (get_pnl session pool buy_time sell_at_multiplier w))
             = statements w ++ new
             /\ forallb sent_is_select new = true)
    /\ database (snd (main w)) = database w
    /\ exists new : list Sent,
         statements (snd (main w)) = statements w ++ new
         /\ forallb sent_is_select new = true.
Proof.
  intros w. split; [| split].
  - intros. rewrite get_pnl_run. simpl. split; [reflexivity |].
    eexists. split; reflexivity.
  - destruct (pool (database w)) as [| p others] eqn:Hpools.
    + rewrite (main_run_no_pool w Hpools). reflexivity.
    + rewrite (main_run_first_pool w p others Hpools). reflexivity.
  - destruct (pool (database w)) as [| p others] eqn:Hpools.
    + rewrite (main_run_no_pool w Hpools). simpl.
      eexists. split; reflexivity.
    + rewrite (main_run_first_pool w p others Hpools). simpl.
      eexists. split; reflexivity.
Qed.

(** ** The strategy parameters *)

(** C10: for every session, pool and world, and any two pairs of strategy
    parameters, the two calls of [get_pnl] are the same: same value,
    [None], same printed timestamps, same world left. *)
Theorem get_pnl_ignores_strategy_parameters :
  forall (session : Session) (pool : Pool.t)
         (buy_time1 sell_at_multiplier1 buy_time2 sell_at_multiplier2 : Z)
         (w : World),
    get_pnl session pool buy_time1 sell_at_multiplier1 w
    = get_pnl session pool buy_time2 sell_at_multiplier2 w
    /\ fst (get_pnl session pool buy_time1 sell_at_multiplier1 w)
       = inr PyNone
    /\ stdout (snd (get_pnl session pool buy_time1 sell_at_multiplier1 w))
       = stdout (snd (get_pnl session pool buy_time2 sell_at_multiplier2 w)).
Proof.
  intros. rewrite !get_pnl_run. repeat split; reflexivity.
Qed.

(** * Further properties of the script *)

Lemma map_print_ts (rows : list Liquidity.t) :
  map print_ts rows = map printed_int (map Liquidity.ts rows).
Proof.
  rewrite map_map. reflexivity.
Qed.

Lemma in_consumed (pool : Pool.t) (w : World) (l : Liquidity.t) :
  In l (consumed pool w)
  <-> In l (liquidity (database w)) /\ Liquidity.pool_id l = Pool.id pool.
Proof.
  unfold consumed, where_pool_id. split.
  - intros Hin.
    apply (Permutation_in l (order_by_ts_asc_permutation _)) in Hin.
    apply filter_In in Hin. destruct Hin as [Hin Heq].
    split; [exact Hin | apply Z.eqb_eq, Heq].
  - intros [Hin Heq].
    apply (Permutation_in l
             (Permutation_sym (order_by_ts_asc_permutation _))).
    apply filter_In. split; [exact Hin | apply Z.eqb_eq, Heq].
Qed.

(** ** The empty pool table *)

(** X1: a run of [main] ends in [TypeError] exactly when table [pool] has
    no row ([pools.first()] is [None] and is subscripted).  In that case
    nothing has been printed and only the select of the pools was sent:
    [get_pnl] is not reached.  With at least one pool the run ends
    normally. *)
Theorem main_fails_exactly_without_pools :
  forall w : World,
    (pool (database w) = []
     /\ fst (main w) = inl TypeError
     /\ stdout (snd (main w)) = stdout w
     /\ statements (snd (main w)) = statements w ++ [sent select_Pool])
    \/
    (pool (database w) <> [] /\ fst (main w) = inr tt).
Proof.
  intros w. destruct (pool (database w)) as [| p others] eqn:Hpools.
  - left. rewrite (main_run_no_pool w Hpools). simpl.
    repeat split; reflexivity.
  - right. rewrite (main_run_first_pool w p others Hpools). simpl.
    split; [discriminate | reflexivity].
Qed.

(** ** What [get_pnl] prints *)

(** X2: called in a fresh process, [get_pnl] prints the timestamps of the
    pool's own liquidity rows and nothing else: a timestamp is printed if
    and only if some stored row with [pool_id = pool.id] has it, one line
    is printed per such row (rows sharing a timestamp are each printed),
    and no pool object is printed.  Rows of other pools never show. *)
Theorem get_pnl_prints_own_rows_only :
  forall (session : Session) (pool : Pool.t)
         (buy_time sell_at_multiplier : Z) (d : Database),
    (forall t : Z,
        In (printed_int t)
          (stdout (snd (get_pnl session pool buy_time sell_at_multiplier
                          (start d))))
        <-> exists l : Liquidity.t,
              In l (liquidity d)
              /\ Liquidity.pool_id l = Pool.id pool
              /\ Liquidity.ts l = t)
    /\ List.length
         (stdout (snd (get_pnl session pool buy_time sell_at_multiplier
                         (start d))))
       = List.length (where_pool_id (Pool.id pool) (liquidity d))
    /\ pools_printed
         (stdout (snd (get_pnl session pool buy_time sell_at_multiplier
                         (start d))))
       = [].
Proof.
  intros session pool buy_time sell_at_multiplier d.
  rewrite get_pnl_run. simpl. split; [| split].
  - intros t. split.
    + intros Hin. apply in_map_iff in Hin.
      destruct Hin as [l [Hprinted Hin]].
      apply in_consumed in Hin. destruct Hin as [Hin Hid].
      exists l. unfold print_ts in Hprinted.
      injection Hprinted as Hts. auto.
    + intros [l [Hin [Hid Hts]]]. apply in_map_iff.
      exists l. split.
      * unfold print_ts. rewrite Hts. reflexivity.
      * apply in_consumed. split; assumption.
  - rewrite List.length_map. apply Permutation_length.
    apply order_by_ts_asc_permutation.
  - apply pools_printed_ts.
Qed.

(** X3: what [get_pnl] prints does not depend on the order in which the
    rows of table [liquidity] are stored (nor on table [pool]): on two
    databases whose liquidity tables hold the same rows in any order, the
    printed sequences are equal. *)
Theorem get_pnl_output_ignores_storage_order :
  forall (session : Session) (pool : Pool.t)
         (buy_time sell_at_multiplier : Z) (d1 d2 : Database),
    Permutation (liquidity d1) (liquidity d2) ->
    stdout (snd (get_pnl session pool buy_time sell_at_multiplier
                   (start d1)))
    = stdout (snd (get_pnl session pool buy_time sell_at_multiplier
                     (start d2))).
Proof.
  intros session pool buy_time sell_at_multiplier d1 d2 Hperm.
  rewrite !get_pnl_run. simpl. rewrite !map_print_ts. f_equal.
  apply storage_order_irrelevant. exact Hperm.
Qed.

Lemma get_pnl_output_ignores_storage_order_witness :
  Permutation [snapshot 2 10 100 25; snapshot 1 0 100 10]
    [snapshot 1 0 100 10; snapshot 2 10 100 25]
  /\ stdout (snd (get_pnl scenario_session scenario_pool 0 2
                    (start (mkDatabase [scenario_pool]
                              [snapshot 2 10 100 25; snapshot 1 0 100 10]))))
     = stdout (snd (get_pnl scenario_session scenario_pool 0 2
                      (start (mkDatabase []
                                [snapshot 1 0 100 10;
                                 snapshot 2 10 100 25])))).
Proof.
  split; [apply perm_swap |].
  apply (get_pnl_output_ignores_storage_order scenario_session scenario_pool
           0 2
           (mkDatabase [scenario_pool]
              [snapshot 2 10 100 25; snapshot 1 0 100 10])
           (mkDatabase [] [snapshot 1 0 100 10; snapshot 2 10 100 25])).
  simpl. apply perm_swap.
Defined.

(** X4: when the pool's rows are stored in non-decreasing [ts] order,
    [get_pnl] prints their timestamps in storage order. *)
Theorem get_pnl_keeps_ascending_storage_order :
  forall (session : Session) (pool : Pool.t)
         (buy_time sell_at_multiplier : Z) (d : Database),
    Sorted Z.le
      (map Liquidity.ts (where_pool_id (Pool.id pool) (liquidity d))) ->
    stdout (snd (get_pnl session pool buy_time sell_at_multiplier (start d)))
    = map print_ts (where_pool_id (Pool.id pool) (liquidity d)).
Proof.
  intros session pool buy_time sell_at_multiplier d Hsorted.
  rewrite get_pnl_run. simpl. rewrite !map_print_ts. f_equal.
  apply ascending_permutation_unique.
  - apply Sorted_StronglySorted; [exact Z.le_trans |].
    apply order_by_ts_asc_ascending.
  - apply Sorted_StronglySorted; [exact Z.le_trans | exact Hsorted].
  - apply Permutation_map. apply order_by_ts_asc_permutation.
Qed.

Lemma get_pnl_keeps_ascending_storage_order_witness :
  Sorted Z.le [0; 10]
  /\ stdout (snd (get_pnl scenario_session scenario_pool 0 2 rug_world))
     = [printed_int 0; printed_int 10].
Proof.
  assert (Hsorted : Sorted Z.le [0; 10]).
  { repeat constructor. lia. }
  split; [exact Hsorted |].
  apply (get_pnl_keeps_ascending_storage_order scenario_session scenario_pool
           0 2 (mkDatabase [scenario_pool]
                  [snapshot 1 0 100 10; snapshot 2 10 0 0])).
  exact Hsorted.
Defined.

(** X5: [get_pnl] reads nothing of the pool but its [id]: for two pool
    objects with the same [id], whatever their other columns, the calls
    are the same (value, printed timestamps, statement sent). *)
Theorem get_pnl_depends_on_pool_id_only :
  forall (session : Session) (p q : Pool.t)
         (buy_time sell_at_multiplier : Z) (w : World),
    Pool.id p = Pool.id q ->
    get_pnl session p buy_time sell_at_multiplier w
    = get_pnl session q buy_time sell_at_multiplier w.
Proof.
  intros session p q buy_time sell_at_multiplier w Hid.
  rewrite !get_pnl_run. unfold consumed. rewrite Hid. reflexivity.
Qed.

Lemma get_pnl_depends_on_pool_id_only_witness :
  Pool.id scenario_pool
  = Pool.id (Pool.mk 1 "other_mint" "other_vault" "other_sol" true 99 false)
  /\ get_pnl scenario_session scenario_pool 0 2 take_profit_world
     = get_pnl scenario_session
         (Pool.mk 1 "other_mint" "other_vault" "other_sol" true 99 false)
         0 2 take_profit_world.
Proof.
  split; [reflexivity |].
  apply (get_pnl_depends_on_pool_id_only scenario_session scenario_pool
           (Pool.mk 1 "other_mint" "other_vault" "other_sol" true 99 false)
           0 2 take_profit_world).
  reflexivity.
Defined.

(** ** Calls in sequence *)

(** X6: two calls of [get_pnl] in sequence, for any two pools and any
    parameters, do not interfere: the run ends with [None], leaves the
    database unchanged, and prints the timestamps of the first pool and
    then those of the second, each as a call alone on the initial world
    prints them; two selects are sent. *)
Theorem get_pnl_calls_do_not_interfere :
  forall (session : Session) (p q : Pool.t)
         (buy_time1 sell_at_multiplier1 buy_time2 sell_at_multiplier2 : Z)
         (w : World),
    (get_pnl session p buy_time1 sell_at_multiplier1 ;;
     get_pnl session q buy_time2 sell_at_multiplier2) w
    = (inr PyNone,
       mkWorld (database w)
         (stdout w ++ map print_ts (consumed p w)
                   ++ map print_ts (consumed q w))
         (statements w
            ++ [sent (select_Liquidity_where_pool_id_order_by_ts_asc
                        (Pool.id p));
                sent (select_Liquidity_where_pool_id_order_by_ts_asc
                        (Pool.id q))])).
Proof.
  intros. unfold bind. rewrite get_pnl_run, get_pnl_run. simpl.
  unfold consumed. simpl. rewrite <- !app_assoc. reflexivity.
Qed.

(** ** What a run of [main] depends on *)

(** X7: a run of [main] in a fresh process is determined by the first pool
    of table [pool] and the liquidity rows of that pool: pools after the
    first and rows of other pools have no influence on how the run ends or
    on what it prints. *)
Theorem main_determined_by_first_pool :
  forall (p : Pool.t) (others1 others2 : list Pool.t)
         (rows1 rows2 : list Liquidity.t),
    where_pool_id (Pool.id p) rows1 = where_pool_id (Pool.id p) rows2 ->
    fst (main (start (mkDatabase (p :: others1) rows1)))
    = fst (main (start (mkDatabase (p :: others2) rows2)))
    /\ stdout (snd (main (start (mkDatabase (p :: others1) rows1))))
       = stdout (snd (main (start (mkDatabase (p :: others2) rows2)))).
Proof.
  intros p others1 others2 rows1 rows2 Hrows.
  rewrite (main_run_first_pool (start (mkDatabase (p :: others1) rows1))
             p others1 eq_refl).
  rewrite (main_run_first_pool (start (mkDatabase (p :: others2) rows2))
             p others2 eq_refl).
  unfold consumed. simpl. rewrite Hrows. split; reflexivity.
Qed.

Lemma main_determined_by_first_pool_witness :
  where_pool_id (Pool.id scenario_pool)
    [snapshot 1 0 100 10; snapshot 2 10 100 25]
  = where_pool_id (Pool.id scenario_pool)
      [Liquidity.mk 7 2 3 50 5; snapshot 1 0 100 10; snapshot 2 10 100 25]
  /\ stdout (snd (main (start (mkDatabase [scenario_pool]
                                 [snapshot 1 0 100 10;
                                  snapshot 2 10 100 25]))))
     = stdout (snd (main (start
                           (mkDatabase
                              [scenario_pool;
                               Pool.mk 2 "m" "t" "s" true 4 false]
                              [Liquidity.mk 7 2 3 50 5; snapshot 1 0 100 10;
                               snapshot 2 10 100 25])))).
Proof.
  split; [reflexivity |].
  apply (main_determined_by_first_pool scenario_pool []
           [Pool.mk 2 "m" "t" "s" true 4 false]
           [snapshot 1 0 100 10; snapshot 2 10 100 25]
           [Liquidity.mk 7 2 3 50 5; snapshot 1 0 100 10;
            snapshot 2 10 100 25]).
  reflexivity.
Defined.
